(** * pulp_rpm: the yum importer's download listener and the RPM viewsets

    A shallow embedding of
    - [plugins/pulp_rpm/plugins/importers/yum/listener.py] (class [Listener]),
    - [pulp_rpm/app/viewsets.py] (the [sync] and [publish] actions),
    and the properties the specification states about them.

    Python code that raises is modelled in a state-and-exception monad: a
    computation takes the state it runs in and gives back an outcome (a value
    or the exception raised) together with the state it leaves behind.  The
    state is kept when an exception is raised: whatever was done before the
    [raise] stays done. *)

From stdpp Require Import base strings list gmap.

(** ** Python outcomes *)

Module Py.

(** The exceptions that occur in the modelled code, by class. *)
Inductive Exn : Type :=
| IOError (path : string)          (* [Errno 2] No such file or directory *)
| AttributeError (attr : string)   (* 'NoneType' object has no attribute .. *)
| ValidationError                  (* is_valid(raise_exception=True) *)
| Http404                          (* get_object() found nothing *)
| Raised (cls : string).           (* any other exception of a collaborator *)

Inductive Result (A : Type) : Type :=
| Ok (a : A)
| Raise (e : Exn).
Arguments Ok {A} a.
Arguments Raise {A} e.

(** A computation over a state [S]. *)
Definition M (S A : Type) : Type := S → Result A * S.

Definition ret {S A} (a : A) : M S A := λ s, (Ok a, s).

Definition raise {S A} (e : Exn) : M S A := λ s, (Raise e, s).

(** Sequencing: an exception in the first statement skips the rest. *)
Definition bind {S A B} (m : M S A) (k : A → M S B) : M S B :=
  λ s, match m s with
       | (Ok a, s') => k a s'
       | (Raise e, s') => (Raise e, s')
       end.

End Py.

Import Py.

Declare Scope py_scope.
Delimit Scope py_scope with py.
Notation "'do' x '<-' m ';' k" := (bind m (λ x, k))
  (at level 10, x name, m at level 100, k at level 200,
   format "'[v' 'do'  x  '<-'  m ';' '/' k ']'") : py_scope.
Notation "'run' m ';' k" := (bind m (λ _, k))
  (at level 10, m at level 100, k at level 200,
   format "'[v' 'run'  m ';' '/' k ']'") : py_scope.
Open Scope py_scope.

(** ** The download listener (listener.py) *)

Module listener.

(** Values held in the dictionaries the downloader and the models pass
    around: package attributes are text or numbers. *)
Inductive Value : Type :=
| Str (s : string)
| Int (z : Z).

(** [report.data]: the package information the download was requested for,
    and [report.error_report]: what the downloader says went wrong. *)
Abbreviation PackageInfo := (gmap string Value).
Abbreviation ErrorReport := (gmap string Value).

(** The file system: the content of the regular file each path leads to. *)
Abbreviation Content := (list Byte.byte).
Abbreviation FileSystem := (gmap string Content).

(** [pulp.common.download.report.DownloadReport]: the fields the listener
    reads. *)
Record DownloadReport : Type := {
  data : PackageInfo;
  destination : string;
  error_report : ErrorReport;
}.

(** A package model, as [models.from_package_info] returns it: the four
    attributes the listener reads. *)
Record Model : Type := {
  TYPE : string;
  unit_key : gmap string Value;
  metadata : gmap string Value;
  relative_path : string;
}.

(** [pulp.plugins.model.Unit], as the conduit's [init_unit] returns it. *)
Record Unit : Type := {
  type_id : string;
  key : gmap string Value;
  unit_metadata : gmap string Value;
  storage_path : string;
}.

(** The sync conduit is supplied by the platform; the listener uses two of
    its methods.  [C] is whatever state the conduit keeps (its database). *)
Class SyncConduit (C : Type) : Type := {
  init_unit : string → gmap string Value → gmap string Value → string → M C Unit;
  save_unit : Unit → M C ();
}.

(** [Listener.__init__] stores its three arguments.  [K] is the state of the
    caller that owns the two callbacks. *)
Record Listener (C K : Type) : Type := {
  sync_conduit : SyncConduit C;
  success_callback : Model → M K ();
  failure_callback : Model → ErrorReport → M K ();
}.
Arguments sync_conduit {C K} _.
Arguments success_callback {C K} _ _ _.
Arguments failure_callback {C K} _ _ _ _.

(** What the listener does to its collaborators, in the order it happens.
    A call is recorded when it is made, whether it returns or raises. *)
Inductive Event : Type :=
| EInitUnit (type : string) (k md : gmap string Value) (path : string)
| EMove (src dst : string)
| ESaveUnit (u : Unit)
| ESuccessCallback (m : Model)
| EFailureCallback (m : Model) (err : ErrorReport).

(** The world a listener method runs in: the file system, the conduit's
    state, the caller's state, and the record of calls made so far. *)
Record World (C K : Type) : Type := mkWorld {
  fs : FileSystem;
  conduit : C;
  caller : K;
  trace : list Event;
}.
Arguments mkWorld {C K} _ _ _ _.
Arguments fs {C K} _.
Arguments conduit {C K} _.
Arguments caller {C K} _.
Arguments trace {C K} _.

Section Methods.
Context {C K : Type}.

(** [models.from_package_info], imported from [pulp_rpm.common.models]. *)
Variable from_package_info : PackageInfo → Model.

(** [shutil.move], of Python's standard library.  Where the file ends up,
    and whether the call raises, depends on what the two paths name
    (a directory, a second name of the same file, a path without parent):
    that is the library's and the operating system's business, and the
    listener is modelled over whatever the move does to the files. *)
Variable move : string → string → M FileSystem ().

Definition log (e : Event) : M (World C K) () :=
  λ w, (Ok (), mkWorld (fs w) (conduit w) (caller w) (trace w ++ [e])).

(** Each collaborator works on its own part of the world. *)
Definition in_conduit {A} (m : M C A) : M (World C K) A :=
  λ w, let r := m (conduit w) in
       (r.1, mkWorld (fs w) r.2 (caller w) (trace w)).

Definition in_files {A} (m : M FileSystem A) : M (World C K) A :=
  λ w, let r := m (fs w) in
       (r.1, mkWorld r.2 (conduit w) (caller w) (trace w)).

Definition in_caller {A} (m : M K A) : M (World C K) A :=
  λ w, let r := m (caller w) in
       (r.1, mkWorld (fs w) (conduit w) r.2 (trace w)).

(** The five calls the listener makes, each recorded and then performed. *)
Definition call_init_unit (self : Listener C K)
    (type : string) (k md : gmap string Value) (path : string)
  : M (World C K) Unit :=
  run log (EInitUnit type k md path);
  in_conduit (@init_unit C (sync_conduit self) type k md path).

Definition call_move (src dst : string) : M (World C K) () :=
  run log (EMove src dst);
  in_files (move src dst).

Definition call_save_unit (self : Listener C K) (u : Unit) : M (World C K) () :=
  run log (ESaveUnit u);
  in_conduit (@save_unit C (sync_conduit self) u).

Definition call_success_callback (self : Listener C K) (m : Model)
  : M (World C K) () :=
  run log (ESuccessCallback m);
  in_caller (success_callback self m).

Definition call_failure_callback (self : Listener C K) (m : Model)
    (err : ErrorReport) : M (World C K) () :=
  run log (EFailureCallback m err);
  in_caller (failure_callback self m err).

Definition download_succeeded (self : Listener C K) (report : DownloadReport)
  : M (World C K) () :=
  let model := from_package_info (data report) in
  (* init unit, which is idempotent *)
  do unit <- call_init_unit self (TYPE model) (unit_key model)
                            (metadata model) (relative_path model);
  (* move to final location *)
  run call_move (destination report) (storage_path unit);
  (* save unit *)
  run call_save_unit self unit;
  call_success_callback self model.

Definition download_failed (self : Listener C K) (report : DownloadReport)
  : M (World C K) () :=
  let model := from_package_info (data report) in
  call_failure_callback self model (error_report report).

End Methods.

(** *** Reading a run *)

(** The calls a computation adds to the record. *)
Definition new_events {C K A} (m : M (World C K) A) (w : World C K)
  : list Event :=
  drop (length (trace w)) (trace (m w).2).

Inductive Call : Type :=
| CInitUnit | CMove | CSaveUnit | CSuccessCallback | CFailureCallback.

#[global] Instance Call_eq_dec : EqDecision Call.
Proof. solve_decision. Defined.

Definition kind (e : Event) : Call :=
  match e with
  | EInitUnit _ _ _ _ => CInitUnit
  | EMove _ _ => CMove
  | ESaveUnit _ => CSaveUnit
  | ESuccessCallback _ => CSuccessCallback
  | EFailureCallback _ _ => CFailureCallback
  end.

(** How often a collaborator was called. *)
Definition calls (c : Call) (evs : list Event) : nat :=
  length (filter (λ k, k = c) (kind <$> evs)).

(** The calls to the conduit and to the callbacks, in order (the file move is
    the listener's own work, not a call to a collaborator). *)
Definition collaborator_calls (evs : list Event) : list Call :=
  filter (λ k, k ≠ CMove) (kind <$> evs).

End listener.

(** ** The REST actions (viewsets.py) *)

Module viewsets.

Abbreviation Pk := N.

(** The ORM records the two actions touch.  Every model has a primary key,
    read as [x.pk]. *)
Class HasPk (A : Type) : Type := pk : A → Pk.

Record Repository : Type := {
  repository_id : Pk;
  name : string;
}.

Record RepositoryVersion : Type := {
  version_id : Pk;
  repository : Repository;
  number : N;
}.

Record RpmRemote : Type := {
  remote_id : Pk;
  url : string;
}.

Record RpmPublisher : Type := {
  publisher_id : Pk;
  publisher_name : string;
}.

#[global] Instance Repository_pk : HasPk Repository := repository_id.
#[global] Instance RepositoryVersion_pk : HasPk RepositoryVersion := version_id.
#[global] Instance RpmRemote_pk : HasPk RpmRemote := remote_id.
#[global] Instance RpmPublisher_pk : HasPk RpmPublisher := publisher_id.

(** A request, as far as the actions look at it: its body. *)
Record Request : Type := {
  data : gmap string string;
}.

(** [serializer.validated_data], read with [.get('repository')] and
    [.get('repository_version')]: [None] stands for Python's [None], which
    [dict.get] gives for a key that is absent. *)
Record ValidatedData : Type := {
  get_repository : option Repository;
  get_repository_version : option RepositoryVersion;
}.

Module tasks.
(** The task functions of [pulp_rpm.app.tasks] the actions dispatch. *)
Inductive Function : Type := synchronize | publish.
End tasks.

(** The resources a task reserves. *)
Inductive Resource : Type :=
| OfRepository (r : Repository)
| OfRemote (r : RpmRemote)
| OfPublisher (p : RpmPublisher).

(** One entry of the task queue: what [enqueue_with_reservation] was given. *)
Record Task : Type := {
  func : tasks.Function;
  resources : list Resource;
  kwargs : gmap string Pk;
}.

(** The handle [enqueue_with_reservation] returns for the job it queued. *)
Record AsyncResult : Type := {
  id : nat;
  job : Task;
}.

Inductive Response : Type :=
| OperationPostponedResponse (result : AsyncResult) (request : Request).

(** [pulpcore.plugin.tasking.enqueue_with_reservation]: puts one job at the
    end of the queue and returns its handle. *)
Definition enqueue_with_reservation (f : tasks.Function)
    (rs : list Resource) (kw : gmap string Pk) : M (list Task) AsyncResult :=
  λ queue, let t := {| func := f; resources := rs; kwargs := kw |} in
           (Ok {| id := length queue; job := t |}, queue ++ [t]).

(** [self.get_object()]: the object of the viewset's queryset with the
    primary key of the URL, or a 404. *)
Definition get_object {S A} (queryset : gmap Pk A) (pk : Pk) : M S A :=
  match queryset !! pk with
  | Some obj => ret obj
  | None => raise Http404
  end.

(** [serializer.is_valid(raise_exception=True)], followed by reading
    [serializer.validated_data]. *)
Definition is_valid {S} (validated : option ValidatedData) : M S ValidatedData :=
  match validated with
  | Some validated_data => ret validated_data
  | None => raise ValidationError
  end.

Section RpmRemoteViewSet.

(** [queryset = RpmRemote.objects.all()] *)
Variable queryset : gmap Pk RpmRemote.

(** [RepositorySyncURLSerializer(data=request.data, context=..)]: the
    validated data, or [None] when the data is not valid. *)
Variable RepositorySyncURLSerializer : Request → option ValidatedData.

Definition sync (request : Request) (pk_ : Pk) : M (list Task) Response :=
  do remote <- get_object queryset pk_;
  do validated_data <- is_valid (RepositorySyncURLSerializer request);
  let repository := get_repository validated_data in
  match repository with
  | Some repository =>
      do result <- enqueue_with_reservation
                     tasks.synchronize
                     [OfRepository repository; OfRemote remote]
                     {[ "remote_pk" := pk remote;
                        "repository_pk" := pk repository ]};
      ret (OperationPostponedResponse result request)
  | None => raise (AttributeError "pk")      (* repository.pk on None *)
  end.

End RpmRemoteViewSet.

Section RpmPublisherViewSet.

(** [queryset = RpmPublisher.objects.all()] *)
Variable queryset : gmap Pk RpmPublisher.

(** [RepositoryPublishURLSerializer(data=request.data, context=..)] *)
Variable RepositoryPublishURLSerializer : Request → option ValidatedData.

(** [RepositoryVersion.latest], of pulpcore. *)
Variable latest : Repository → RepositoryVersion.

Definition publish (request : Request) (pk_ : Pk) : M (list Task) Response :=
  do publisher <- get_object queryset pk_;
  do validated_data <- is_valid (RepositoryPublishURLSerializer request);
  let repository_version := get_repository_version validated_data in
  (* Safe because version OR repository is enforced by serializer. *)
  do repository_version <-
    match repository_version with
    | Some repository_version => ret repository_version
    | None =>                                 (* if not repository_version: *)
        let repository := get_repository validated_data in
        match repository with
        | Some repository => ret (latest repository)
        | None => raise (AttributeError "versions")   (* latest(None) *)
        end
    end;
  do result <- enqueue_with_reservation
                 tasks.publish
                 [OfRepository (viewsets.repository repository_version);
                  OfPublisher publisher]
                 {[ "publisher_pk" := pk publisher;
                    "repository_version_pk" := pk repository_version ]};
  ret (OperationPostponedResponse result request).

End RpmPublisherViewSet.

End viewsets.

(** ** The package model (pulp_rpm.common.models) *)

Module models.
Import listener.

(** The natural key of a package. *)
Definition UNIT_KEY_NAMES : list string :=
  ["name"; "epoch"; "version"; "release"; "arch"; "checksum"].

Section FromPackageInfo.

(** The type identifier and the relative path a model gets. *)
Variable type_of : PackageInfo → string.
Variable path_of : PackageInfo → string.

(** Modelled from the spec: [pulp_rpm/common/models.py], where
    [from_package_info] is defined, is not among the sources.  The spec calls
    its result "a transient, derived representation of one package's
    identity/metadata" and gives the natural key of a package as
    name/epoch/version/release/arch and checksum: the entries of the package
    information under those names make up the unit key, the remaining ones
    the metadata.  The spec says nothing about the type identifier and the
    relative path, which are left to [type_of] and [path_of]. *)
Definition from_package_info (package_info : PackageInfo) : Model :=
  {| TYPE := type_of package_info;
     unit_key := filter (λ kv, kv.1 ∈ UNIT_KEY_NAMES) package_info;
     metadata := filter (λ kv, kv.1 ∉ UNIT_KEY_NAMES) package_info;
     relative_path := path_of package_info |}.

End FromPackageInfo.


End models.

(** ** A small installation to run the listener and the actions in *)

Module fixtures.
Import listener.

Definition bash_info : PackageInfo :=
  {[ "name" := Str "bash"; "epoch" := Str "0"; "version" := Str "4.2.46";
     "release" := Str "34.el7"; "arch" := Str "x86_64";
     "checksum" := Str "3e9c7c8f"; "size" := Int 1036 ]}.

Definition timeout : ErrorReport := {[ "response_code" := Int 504 ]}.

Definition bash_report : DownloadReport :=
  {| data := bash_info;
     destination := "/tmp/sync/bash.rpm";
     error_report := timeout |}.

Definition rpm_file : Content := [Byte.xed; Byte.xab; Byte.xee; Byte.xdb].

Definition from_package_info : PackageInfo → Model :=
  models.from_package_info (λ _, "rpm") (λ _, "bash.rpm").

(** A path up to its last slash, and what follows it. *)
Fixpoint split_path (path : string) : option (string * string) :=
  match path with
  | EmptyString => None
  | String c rest =>
      match split_path rest with
      | Some (dir, base) => Some (String c dir, base)
      | None => if String.eqb (String c EmptyString) "/" then Some (EmptyString, rest) else None
      end
  end.

Definition basename (path : string) : string :=
  match split_path path with Some (_, base) => base | None => path end.

Definition dirname (path : string) : string :=
  match split_path path with Some (dir, _) => dir | None => EmptyString end.

(** The directories of the installation: where the downloader writes, and
    where the platform stores content. *)
Definition directories : list string :=
  ["/tmp/sync"; "/var/lib/pulp/content"].

(** [shutil.move] in this installation, where paths are written in one way
    and no file has two names.  A move to a directory goes into it, and is
    refused when the directory has a file of that name; otherwise the file
    is renamed, replacing what the new name held, which takes a file to
    rename and a directory to put it in.  Renaming a file to the name it has
    changes nothing. *)
Definition move (src dst : string) : M FileSystem () :=
  λ files,
    let into := bool_decide (dst ∈ directories) in
    let real_dst := if into then dst +:+ "/" +:+ basename src else dst in
    if into && bool_decide (is_Some (files !! real_dst))
    then (Raise (Raised "shutil.Error"), files)
    else match files !! src with
         | None => (Raise (IOError src), files)
         | Some c =>
             if bool_decide (dirname real_dst ∈ directories)
             then (Ok (), <[real_dst := c]> (delete src files))
             else (Raise (IOError real_dst), files)
         end.

(** A conduit that keeps the saved units in a list and stores content under
    one directory. *)
Definition store : SyncConduit (list Unit) :=
  {| init_unit type k md path :=
       ret {| type_id := type; key := k; unit_metadata := md;
              storage_path := "/var/lib/pulp/content/" +:+ path |};
     save_unit u := λ saved, (Ok (), saved ++ [u]) |}.

(** The same conduit with a database that refuses to save. *)
Definition read_only_store : SyncConduit (list Unit) :=
  {| init_unit := @init_unit _ store;
     save_unit u := raise (Raised "PulpDataException") |}.

(** A conduit that cannot initialise units. *)
Definition offline_store : SyncConduit (list Unit) :=
  {| init_unit type k md path := raise (Raised "ConnectionFailure");
     save_unit := @save_unit _ store |}.




(** A caller that counts the packages that succeeded and those that failed. *)
Definition listening (c : SyncConduit (list Unit)) : Listener (list Unit) (nat * nat) :=
  {| sync_conduit := c;
     success_callback m := λ n, (Ok (), (S n.1, n.2));
     failure_callback m err := λ n, (Ok (), (n.1, S n.2)) |}.

(** A caller whose success callback fails. *)
Definition complaining (c : SyncConduit (list Unit)) : Listener (list Unit) (nat * nat) :=
  {| sync_conduit := c;
     success_callback m := raise (Raised "CallbackError");
     failure_callback m err := λ n, (Ok (), (n.1, S n.2)) |}.

(** The file has been downloaded and nothing else has happened yet. *)
Definition downloaded : World (list Unit) (nat * nat) :=
  mkWorld {[ "/tmp/sync/bash.rpm" := rpm_file ]} [] (0, 0) [].

(** The download left no file. *)
Definition nothing_downloaded : World (list Unit) (nat * nat) :=
  mkWorld ∅ [] (0, 0) [].

Import viewsets.

Definition zoo : Repository := {| repository_id := 7; name := "zoo" |}.
Definition zoo_1 : RepositoryVersion :=
  {| version_id := 70; repository := zoo; number := 1 |}.
Definition zoo_2 : RepositoryVersion :=
  {| version_id := 71; repository := zoo; number := 2 |}.
Definition upstream : RpmRemote :=
  {| remote_id := 3; url := "https://example.org/zoo/" |}.
Definition www : RpmPublisher :=
  {| publisher_id := 5; publisher_name := "www" |}.

Definition remotes : gmap Pk RpmRemote := {[ 3%N := upstream ]}.
Definition publishers : gmap Pk RpmPublisher := {[ 5%N := www ]}.

(** A request body names the repository, or one of its versions. *)
Definition for_repository : Request :=
  {| viewsets.data := {[ "repository" := "/repositories/7/" ]} |}.
Definition for_version : Request :=
  {| viewsets.data := {[ "repository_version" := "/repositories/7/versions/1/" ]} |}.

Definition serializer (request : Request) : option ValidatedData :=
  match viewsets.data request !! "repository_version",
        viewsets.data request !! "repository" with
  | Some "/repositories/7/versions/1/", None =>
      Some {| get_repository := None; get_repository_version := Some zoo_1 |}
  | None, Some "/repositories/7/" =>
      Some {| get_repository := Some zoo; get_repository_version := None |}
  | _, _ => None
  end.

Definition latest (r : Repository) : RepositoryVersion := zoo_2.

(** A request with an empty body, which does not validate. *)
Definition empty_request : Request := {| viewsets.data := ∅ |}.

End fixtures.

(** ** The runs of [download_succeeded] *)

Module runs.
Import listener.

Section Runs.
Context {C K : Type}.
Variable from_package_info : PackageInfo → Model.
Variable move : string → string → M FileSystem ().
Variable self : Listener C K.
Variable report : DownloadReport.
Variable w : World C K.

Let model : Model := from_package_info (data report).

Definition init_unit_of : Result Unit * C :=
  @init_unit C (sync_conduit self) (TYPE model) (unit_key model)
             (metadata model) (relative_path model) (conduit w).

Definition init_event : Event :=
  EInitUnit (TYPE model) (unit_key model) (metadata model) (relative_path model).

(** The move of the downloaded file to the storage path of a unit. *)
Definition move_of (u : Unit) : Result () * FileSystem :=
  move (destination report) (storage_path u) (fs w).

(** The four ways a call of [download_succeeded] can go: it stops at the
    first step that raises, and otherwise ends as the success callback
    does. *)
Inductive Succeeded : Result () * World C K → Prop :=
| init_unit_raises e c1 :
    init_unit_of = (Raise e, c1) →
    Succeeded (Raise e,
               mkWorld (fs w) c1 (caller w) (trace w ++ [init_event]))
| move_raises u c1 e files :
    init_unit_of = (Ok u, c1) →
    move_of u = (Raise e, files) →
    Succeeded (Raise e,
               mkWorld files c1 (caller w)
                 (trace w ++ [init_event;
                              EMove (destination report) (storage_path u)]))
| save_unit_raises u c1 files e c2 :
    init_unit_of = (Ok u, c1) →
    move_of u = (Ok (), files) →
    @save_unit C (sync_conduit self) u c1 = (Raise e, c2) →
    Succeeded (Raise e,
               mkWorld files c2 (caller w)
                 (trace w ++ [init_event;
                              EMove (destination report) (storage_path u);
                              ESaveUnit u]))
| callback_called u c1 files c2 r k :
    init_unit_of = (Ok u, c1) →
    move_of u = (Ok (), files) →
    @save_unit C (sync_conduit self) u c1 = (Ok (), c2) →
    success_callback self model (caller w) = (r, k) →
    Succeeded (r,
               mkWorld files c2 k
                 (trace w ++ [init_event;
                              EMove (destination report) (storage_path u);
                              ESaveUnit u;
                              ESuccessCallback model])).

(** A step of the success path raises: the conduit's [init_unit], the file
    move, or the conduit's [save_unit]. *)
Inductive StepRaises : Exn → Prop :=
| raises_in_init_unit e c1 :
    init_unit_of = (Raise e, c1) → StepRaises e
| raises_in_move u c1 e files :
    init_unit_of = (Ok u, c1) →
    move (destination report) (storage_path u) (fs w) = (Raise e, files) →
    StepRaises e
| raises_in_save_unit u c1 files e c2 :
    init_unit_of = (Ok u, c1) →
    move (destination report) (storage_path u) (fs w) = (Ok (), files) →
    @save_unit C (sync_conduit self) u c1 = (Raise e, c2) →
    StepRaises e.

End Runs.

End runs.

(** * Properties *)

Module listener_props.
Import listener runs.

Section Listener.
Context {C K : Type}.
Variable from_package_info : PackageInfo → Model.
Variable move : string → string → M FileSystem ().
Variable self : Listener C K.
Variable report : DownloadReport.
Variable w : World C K.

Lemma download_succeeded_run :
  Succeeded from_package_info move self report w
            (download_succeeded from_package_info move self report w).
Proof.
  unfold download_succeeded, call_init_unit, call_move, call_save_unit,
    call_success_callback, bind, log, in_conduit, in_files, in_caller; simpl.
  fold (init_unit_of from_package_info self report w).
  destruct (init_unit_of from_package_info self report w) as [[u|e] c1] eqn:Hinit;
    simpl; [| by eapply init_unit_raises].
  fold (move_of move report w u).
  destruct (move_of move report w u) as [[[]|e] files] eqn:Hmove; simpl.
  2: { rewrite <- !app_assoc. by eapply move_raises. }
  destruct (@save_unit C (sync_conduit self) u c1) as [[[]|e] c2] eqn:Hsave;
    simpl; rewrite <- !app_assoc; simpl.
  2: { by eapply save_unit_raises. }
  destruct (success_callback self (from_package_info (data report)) (caller w))
    as [r k] eqn:Hcb; simpl.
  by eapply callback_called.
Qed.

Lemma download_failed_run :
  download_failed from_package_info self report w =
  let m := from_package_info (data report) in
  let r := failure_callback self m (error_report report) (caller w) in
  (r.1, mkWorld (fs w) (conduit w) r.2
          (trace w ++ [EFailureCallback m (error_report report)])).
Proof. reflexivity. Qed.

End Listener.

Lemma new_events_app {C K A} (m : M (World C K) A) (w : World C K) evs :
  trace (m w).2 = trace w ++ evs → new_events m w = evs.
Proof. unfold new_events. intros ->. by rewrite drop_app_length. Qed.

(** Take a call of [download_succeeded] apart into its four runs, and read
    off the calls each one makes. *)
Ltac by_run fpi move self report w :=
  unfold new_events;
  destruct (download_succeeded_run fpi move self report w)
    as [e c1 Hinit
       |u c1 e files Hinit Hmove
       |u c1 files e c2 Hinit Hmove Hsave
       |u c1 files c2 r k Hinit Hmove Hsave Hcallback];
  unfold move_of in *;
  cbn [fst snd trace fs conduit caller];
  rewrite ?drop_app_length.

(** C1, as amended.  A call of [download_succeeded] calls the conduit's
    [init_unit], then [save_unit], then the success callback, in that order
    and none of them twice, and stops at the first step that raises:
    [init_unit] is always called, [save_unit] exactly when [init_unit] and
    the file move have returned, and the success callback exactly when
    [save_unit] has returned too.  When the call returns normally each of the
    three has been called exactly once. *)
Theorem download_succeeded_call_order {C K} (fpi : PackageInfo → Model)
    (move : string → string → M FileSystem ())
    (self : Listener C K) (report : DownloadReport) (w : World C K) :
  let r := download_succeeded fpi move self report w in
  let evs := new_events (download_succeeded fpi move self report) w in
  trace r.2 = trace w ++ evs ∧
  collaborator_calls evs `prefix_of` [CInitUnit; CSaveUnit; CSuccessCallback] ∧
  (∀ c, calls c evs ≤ 1) ∧
  calls CInitUnit evs = 1 ∧
  (calls CSaveUnit evs = 1 ↔
   ∃ u c1 files,
     init_unit_of fpi self report w = (Ok u, c1) ∧
     move (destination report) (storage_path u) (fs w) = (Ok (), files)) ∧
  (calls CSuccessCallback evs = 1 ↔
   ∃ u c1 files c2,
     init_unit_of fpi self report w = (Ok u, c1) ∧
     move (destination report) (storage_path u) (fs w) = (Ok (), files) ∧
     @save_unit C (sync_conduit self) u c1 = (Ok (), c2)) ∧
  (r.1 = Ok () →
   collaborator_calls evs = [CInitUnit; CSaveUnit; CSuccessCallback] ∧
   calls CInitUnit evs = 1 ∧ calls CSaveUnit evs = 1 ∧
   calls CSuccessCallback evs = 1).
Proof.
  cbv zeta. by_run fpi move self report w.
  - split_and!; [done | by exists [CSaveUnit; CSuccessCallback]
                 | intros []; cbv; lia | done | | | done].
    + split; [done | intros (? & ? & ? & ? & ?); congruence].
    + split; [done | intros (? & ? & ? & ? & ? & ? & ?); congruence].
  - split_and!; [done | by exists [CSaveUnit; CSuccessCallback]
                 | intros []; cbv; lia | done | | | done].
    + split; [done | intros (? & ? & ? & ? & ?); congruence].
    + split; [done | intros (? & ? & ? & ? & ? & ? & ?); congruence].
  - split_and!; [done | by exists [CSuccessCallback]
                 | intros []; cbv; lia | done | | | done].
    + split; [eauto 10 | done].
    + split; [done | intros (? & ? & ? & ? & ? & ? & ?); congruence].
  - split_and!; [done | by exists [] | intros []; cbv; lia | done | | | done].
    + split; [eauto 10 | done].
    + split; [eauto 10 | done].
Qed.

(** With a conduit that saves, the three calls are made, in order. *)
Lemma download_succeeded_call_order_witness :
  collaborator_calls
    (new_events (download_succeeded fixtures.from_package_info fixtures.move
                   (fixtures.listening fixtures.store) fixtures.bash_report)
                fixtures.downloaded)
  = [CInitUnit; CSaveUnit; CSuccessCallback].
Proof.
  apply (download_succeeded_call_order fixtures.from_package_info
           fixtures.move (fixtures.listening fixtures.store)
           fixtures.bash_report fixtures.downloaded).
  vm_compute. reflexivity.
Defined.

(** C1, as stated, fails: when the conduit's [save_unit] raises, the success
    callback is never called. *)
Lemma download_succeeded_save_unit_raises_no_callback :
  (download_succeeded fixtures.from_package_info fixtures.move
     (fixtures.listening fixtures.read_only_store) fixtures.bash_report
     fixtures.downloaded).1 = Raise (Raised "PulpDataException") ∧
  collaborator_calls
    (new_events (download_succeeded fixtures.from_package_info fixtures.move
                   (fixtures.listening fixtures.read_only_store)
                   fixtures.bash_report)
                fixtures.downloaded)
  = [CInitUnit; CSaveUnit] ∧
  calls CSuccessCallback
    (new_events (download_succeeded fixtures.from_package_info fixtures.move
                   (fixtures.listening fixtures.read_only_store)
                   fixtures.bash_report)
                fixtures.downloaded)
  = 0.
Proof. vm_compute. done. Qed.




(** C3.  [download_failed] makes one call, to the failure callback, with the
    model derived from the report and the report's error report.  It calls
    neither [init_unit] nor [save_unit]; the conduit's state and the file
    system are as before, and the call ends as the callback does. *)
Theorem download_failed_only_calls_failure_callback {C K}
    (fpi : PackageInfo → Model) (self : Listener C K)
    (report : DownloadReport) (w : World C K) :
  let r := download_failed fpi self report w in
  let evs := new_events (download_failed fpi self report) w in
  let cb := failure_callback self (fpi (data report)) (error_report report)
              (caller w) in
  evs = [EFailureCallback (fpi (data report)) (error_report report)] ∧
  trace r.2 = trace w ++ evs ∧
  calls CInitUnit evs = 0 ∧ calls CSaveUnit evs = 0 ∧
  conduit r.2 = conduit w ∧
  fs r.2 = fs w ∧
  r.1 = cb.1 ∧ caller r.2 = cb.2.
Proof.
  cbv zeta. unfold new_events. rewrite download_failed_run.
  cbn [fst snd trace fs conduit caller]. rewrite drop_app_length.
  by split_and!.
Qed.

(** C9.  [download_failed] moves nothing: the file system after the call is
    the file system before it, so what was at [report.destination] still
    is. *)
Theorem download_failed_leaves_file {C K}
    (fpi : PackageInfo → Model) (self : Listener C K)
    (report : DownloadReport) (w : World C K) :
  let r := download_failed fpi self report w in
  calls CMove (new_events (download_failed fpi self report) w) = 0 ∧
  fs r.2 = fs w ∧
  fs r.2 !! destination report = fs w !! destination report.
Proof.
  cbv zeta. unfold new_events. rewrite download_failed_run.
  cbn [fst snd trace fs conduit caller]. rewrite drop_app_length.
  by split_and!.
Qed.

(** C5.  Neither method catches anything.  An exception raised by
    [init_unit], by the file move or by [save_unit] is the outcome of
    [download_succeeded]; [download_failed] hands the report's error report
    to the failure callback and ends as the callback ends, so it raises
    nothing of its own. *)
Theorem exceptions_propagate {C K}
    (fpi : PackageInfo → Model) (move : string → string → M FileSystem ())
    (self : Listener C K) (report : DownloadReport) (w : World C K) :
  (∀ e, StepRaises fpi move self report w e →
        (download_succeeded fpi move self report w).1 = Raise e) ∧
  new_events (download_failed fpi self report) w
    = [EFailureCallback (fpi (data report)) (error_report report)] ∧
  (download_failed fpi self report w).1
    = (failure_callback self (fpi (data report)) (error_report report)
         (caller w)).1.
Proof.
  split_and!.
  - intros e' Hraises.
    destruct Hraises as [e0 c0 Hinit0
                        |u0 c0 e0 files0 Hinit0 Hmove0
                        |u0 c0 files0 e0 c3 Hinit0 Hmove0 Hsave0];
      by_run fpi move self report w; congruence.
  - unfold new_events. rewrite download_failed_run.
    cbn [fst snd trace]. by rewrite drop_app_length.
  - by rewrite download_failed_run.
Qed.

(** An error of the conduit's [init_unit], a missing file and an error of the
    conduit's [save_unit] each come out of [download_succeeded]. *)
Lemma exceptions_propagate_witness :
  (download_succeeded fixtures.from_package_info fixtures.move
     (fixtures.listening fixtures.offline_store) fixtures.bash_report
     fixtures.downloaded).1 = Raise (Raised "ConnectionFailure") ∧
  (download_succeeded fixtures.from_package_info fixtures.move
     (fixtures.listening fixtures.store) fixtures.bash_report
     fixtures.nothing_downloaded).1 = Raise (IOError "/tmp/sync/bash.rpm") ∧
  (download_succeeded fixtures.from_package_info fixtures.move
     (fixtures.listening fixtures.read_only_store) fixtures.bash_report
     fixtures.downloaded).1 = Raise (Raised "PulpDataException").
Proof.
  split_and!.
  - apply (exceptions_propagate fixtures.from_package_info fixtures.move
             (fixtures.listening fixtures.offline_store) fixtures.bash_report
             fixtures.downloaded).
    by eapply raises_in_init_unit; vm_compute.
  - apply (exceptions_propagate fixtures.from_package_info fixtures.move
             (fixtures.listening fixtures.store) fixtures.bash_report
             fixtures.nothing_downloaded).
    by eapply raises_in_move; vm_compute.
  - apply (exceptions_propagate fixtures.from_package_info fixtures.move
             (fixtures.listening fixtures.read_only_store) fixtures.bash_report
             fixtures.downloaded).
    by eapply raises_in_save_unit; vm_compute.
Defined.










End listener_props.

Module viewsets_props.
Import viewsets.

(** What [enqueue_with_reservation] does to the queue. *)
Lemma enqueue_with_reservation_run f rs kw (queue : list Task) :
  ∃ result,
    enqueue_with_reservation f rs kw queue = (Ok result, queue ++ [job result]) ∧
    id result = length queue ∧
    job result = {| func := f; resources := rs; kwargs := kw |}.
Proof.
  by exists {| id := length queue;
               job := {| func := f; resources := rs; kwargs := kw |} |}.
Qed.

Section Actions.
Variable remotes : gmap Pk RpmRemote.
Variable publishers : gmap Pk RpmPublisher.
Variable RepositorySyncURLSerializer : Request → option ValidatedData.
Variable RepositoryPublishURLSerializer : Request → option ValidatedData.
Variable latest : Repository → RepositoryVersion.
Variable request : Request.
Variable pk_ : Pk.
Variable queue : list Task.

(** [sync] on a request that names an existing remote and validates to a
    repository. *)
Lemma sync_run remote validated_data repository :
  remotes !! pk_ = Some remote →
  RepositorySyncURLSerializer request = Some validated_data →
  get_repository validated_data = Some repository →
  sync remotes RepositorySyncURLSerializer request pk_ queue =
  bind (enqueue_with_reservation tasks.synchronize
          [OfRepository repository; OfRemote remote]
          {[ "remote_pk" := pk remote; "repository_pk" := pk repository ]})
       (λ result, ret (OperationPostponedResponse result request)) queue.
Proof.
  intros Hremote Hvalid Hrepo.
  unfold sync, get_object, is_valid, bind at 1 2.
  rewrite Hremote, Hvalid. cbn [ret]. by rewrite Hrepo.
Qed.

(** [publish] on a request that names an existing publisher and validates
    to a repository version, or else to a repository. *)
Lemma publish_run publisher validated_data repository_version :
  publishers !! pk_ = Some publisher →
  RepositoryPublishURLSerializer request = Some validated_data →
  (get_repository_version validated_data = Some repository_version ∨
   get_repository_version validated_data = None ∧
   ∃ repository, get_repository validated_data = Some repository ∧
                 repository_version = latest repository) →
  publish publishers RepositoryPublishURLSerializer latest request pk_ queue =
  bind (enqueue_with_reservation tasks.publish
          [OfRepository (repository repository_version); OfPublisher publisher]
          {[ "publisher_pk" := pk publisher;
             "repository_version_pk" := pk repository_version ]})
       (λ result, ret (OperationPostponedResponse result request)) queue.
Proof.
  intros Hpublisher Hvalid Hversion.
  unfold publish, get_object, is_valid, bind at 1 2 3.
  rewrite Hpublisher, Hvalid. cbn [ret].
  destruct Hversion as [Hrv|(Hrv & repo & Hrepo & ->)]; rewrite Hrv; [done |].
  by rewrite Hrepo.
Qed.

(** C8.  On a valid request (the object of the URL exists, the body
    validates, and the validated data names the repository, or for [publish]
    a repository version or a repository), [sync] and [publish] each put
    exactly one task on the queue and return an [OperationPostponedResponse]
    that wraps the handle of that task. *)
Theorem sync_and_publish_return_task_handle :
  (∀ remote validated_data repository,
     remotes !! pk_ = Some remote →
     RepositorySyncURLSerializer request = Some validated_data →
     get_repository validated_data = Some repository →
     ∃ result,
       sync remotes RepositorySyncURLSerializer request pk_ queue
         = (Ok (OperationPostponedResponse result request),
            queue ++ [job result]) ∧
       id result = length queue ∧
       func (job result) = tasks.synchronize) ∧
  (∀ publisher validated_data,
     publishers !! pk_ = Some publisher →
     RepositoryPublishURLSerializer request = Some validated_data →
     is_Some (get_repository_version validated_data) ∨
     is_Some (get_repository validated_data) →
     ∃ result,
       publish publishers RepositoryPublishURLSerializer latest request pk_ queue
         = (Ok (OperationPostponedResponse result request),
            queue ++ [job result]) ∧
       id result = length queue ∧
       func (job result) = tasks.publish).
Proof.
  split.
  - intros remote vd repo Hremote Hvalid Hrepo.
    rewrite (sync_run _ _ _ Hremote Hvalid Hrepo).
    destruct (enqueue_with_reservation_run tasks.synchronize
                [OfRepository repo; OfRemote remote]
                {[ "remote_pk" := pk remote; "repository_pk" := pk repo ]}
                queue) as (result & Hrun & Hid & Hjob).
    exists result. unfold bind. rewrite Hrun, Hjob. by split_and!.
  - intros publisher vd Hpublisher Hvalid Hnamed.
    assert (∃ rv, get_repository_version vd = Some rv ∨
                  get_repository_version vd = None ∧
                  ∃ repo, get_repository vd = Some repo ∧ rv = latest repo)
      as [rv Hrv].
    { destruct (get_repository_version vd) as [rv|] eqn:Hv; [by eauto |].
      destruct Hnamed as [[? [=]]|[repo Hrepo]]. exists (latest repo). eauto. }
    rewrite (publish_run _ _ _ Hpublisher Hvalid Hrv).
    destruct (enqueue_with_reservation_run tasks.publish
                [OfRepository (repository rv); OfPublisher publisher]
                {[ "publisher_pk" := pk publisher;
                   "repository_version_pk" := pk rv ]}
                queue) as (result & Hrun & Hid & Hjob).
    exists result. unfold bind. rewrite Hrun, Hjob. by split_and!.
Qed.

(** C10.  When the validated data of [publish] has no repository version,
    the task is queued for [RepositoryVersion.latest] of the repository it
    has; a repository version it has is the one the task is queued for. *)
Theorem publish_repository_version publisher validated_data :
  publishers !! pk_ = Some publisher →
  RepositoryPublishURLSerializer request = Some validated_data →
  let queued rv result :=
    publish publishers RepositoryPublishURLSerializer latest request pk_ queue
      = (Ok (OperationPostponedResponse result request), queue ++ [job result]) ∧
    func (job result) = tasks.publish ∧
    resources (job result)
      = [OfRepository (repository rv); OfPublisher publisher] ∧
    kwargs (job result)
      = {[ "publisher_pk" := pk publisher;
           "repository_version_pk" := pk rv ]} in
  (∀ repository,
     get_repository_version validated_data = None →
     get_repository validated_data = Some repository →
     ∃ result, queued (latest repository) result) ∧
  (∀ repository_version,
     get_repository_version validated_data = Some repository_version →
     ∃ result, queued repository_version result).
Proof.
  intros Hpublisher Hvalid. cbv zeta.
  assert (∀ rv,
            (get_repository_version validated_data = Some rv ∨
             get_repository_version validated_data = None ∧
             ∃ repo, get_repository validated_data = Some repo ∧
                     rv = latest repo) →
            ∃ result,
              publish publishers RepositoryPublishURLSerializer latest request
                pk_ queue
                = (Ok (OperationPostponedResponse result request),
                   queue ++ [job result]) ∧
              func (job result) = tasks.publish ∧
              resources (job result)
                = [OfRepository (repository rv); OfPublisher publisher] ∧
              kwargs (job result)
                = {[ "publisher_pk" := pk publisher;
                     "repository_version_pk" := pk rv ]}) as Hqueued.
  { intros rv Hrv. rewrite (publish_run _ _ _ Hpublisher Hvalid Hrv).
    destruct (enqueue_with_reservation_run tasks.publish
                [OfRepository (repository rv); OfPublisher publisher]
                {[ "publisher_pk" := pk publisher;
                   "repository_version_pk" := pk rv ]}
                queue) as (result & Hrun & Hid & Hjob).
    exists result. unfold bind. rewrite Hrun, Hjob. by split_and!. }
  split.
  - intros repo Hnone Hrepo. apply Hqueued. right. eauto.
  - intros rv Hrv. apply Hqueued. by left.
Qed.

End Actions.

(** A sync of [upstream] into [zoo], and a publication of [zoo] by [www],
    each queue one task. *)
Lemma sync_and_publish_return_task_handle_witness :
  (∃ result,
     sync fixtures.remotes fixtures.serializer fixtures.for_repository 3 []
       = (Ok (OperationPostponedResponse result fixtures.for_repository),
          [] ++ [job result]) ∧
     id result = 0 ∧ func (job result) = tasks.synchronize) ∧
  (∃ result,
     publish fixtures.publishers fixtures.serializer fixtures.latest
       fixtures.for_repository 5 []
       = (Ok (OperationPostponedResponse result fixtures.for_repository),
          [] ++ [job result]) ∧
     id result = 0 ∧ func (job result) = tasks.publish).
Proof.
  destruct (sync_and_publish_return_task_handle fixtures.remotes
              fixtures.publishers fixtures.serializer fixtures.serializer
              fixtures.latest fixtures.for_repository 3%N [])
    as [Hsync _].
  destruct (sync_and_publish_return_task_handle fixtures.remotes
              fixtures.publishers fixtures.serializer fixtures.serializer
              fixtures.latest fixtures.for_repository 5%N [])
    as [_ Hpublish].
  split.
  - apply (Hsync fixtures.upstream
             {| get_repository := Some fixtures.zoo;
                get_repository_version := None |} fixtures.zoo);
      reflexivity.
  - apply (Hpublish fixtures.www
             {| get_repository := Some fixtures.zoo;
                get_repository_version := None |});
      [reflexivity | reflexivity | right; by eexists].
Defined.

(** Publishing [zoo] queues its latest version, [zoo_2]; publishing the
    version [zoo_1] queues that version. *)
Lemma publish_repository_version_witness :
  (∃ result,
     publish fixtures.publishers fixtures.serializer fixtures.latest
       fixtures.for_repository 5 []
       = (Ok (OperationPostponedResponse result fixtures.for_repository),
          [] ++ [job result]) ∧
     func (job result) = tasks.publish ∧
     resources (job result)
       = [OfRepository fixtures.zoo; OfPublisher fixtures.www] ∧
     kwargs (job result)
       = {[ "publisher_pk" := 5%N; "repository_version_pk" := 71%N ]}) ∧
  (∃ result,
     publish fixtures.publishers fixtures.serializer fixtures.latest
       fixtures.for_version 5 []
       = (Ok (OperationPostponedResponse result fixtures.for_version),
          [] ++ [job result]) ∧
     func (job result) = tasks.publish ∧
     resources (job result)
       = [OfRepository fixtures.zoo; OfPublisher fixtures.www] ∧
     kwargs (job result)
       = {[ "publisher_pk" := 5%N; "repository_version_pk" := 70%N ]}).
Proof.
  split.
  - destruct (publish_repository_version fixtures.publishers
                fixtures.serializer fixtures.latest fixtures.for_repository
                5%N [] fixtures.www
                {| get_repository := Some fixtures.zoo;
                   get_repository_version := None |} eq_refl eq_refl)
      as [Hlatest _].
    apply (Hlatest fixtures.zoo); reflexivity.
  - destruct (publish_repository_version fixtures.publishers
                fixtures.serializer fixtures.latest fixtures.for_version
                5%N [] fixtures.www
                {| get_repository := None;
                   get_repository_version := Some fixtures.zoo_1 |}
                eq_refl eq_refl)
      as [_ Hgiven].
    apply (Hgiven fixtures.zoo_1); reflexivity.
Defined.

End viewsets_props.

(** * Further properties of the listener *)

Module listener_more.
Import listener runs listener_props.

(** What [download_succeeded] does to the files and to the conduit depends
    on the files and the conduit only, not on the caller or on the calls
    made before. *)
Lemma download_succeeded_files_conduit {C K} (fpi : PackageInfo → Model)
    (move : string → string → M FileSystem ())
    (self : Listener C K) (report : DownloadReport) (w w' : World C K) :
  fs w = fs w' → conduit w = conduit w' →
  fs (download_succeeded fpi move self report w).2
    = fs (download_succeeded fpi move self report w').2 ∧
  conduit (download_succeeded fpi move self report w).2
    = conduit (download_succeeded fpi move self report w').2.
Proof.
  destruct w as [f c k t], w' as [f' c' k' t']. cbn [fs conduit].
  intros <- <-.
  unfold download_succeeded, call_init_unit, call_move, call_save_unit,
    call_success_callback, bind, log, in_conduit, in_files, in_caller;
    cbn [fs conduit caller trace fst snd].
  destruct (init_unit _ _ _ _ c) as [[u|e] c1]; cbn [fst snd fs conduit]; [|done].
  destruct (move (destination report) (storage_path u) f) as [[[]|e] f1];
    cbn [fst snd fs conduit]; [|done].
  destruct (save_unit u c1) as [[[]|e] c2]; cbn [fst snd fs conduit]; done.
Qed.

(** X1.  [init_unit] is given the four attributes of the model; the unit
    given to [save_unit] and the storage path the file is moved to are those
    of the unit [init_unit] returned; the failure callback is never
    called. *)
Theorem download_succeeded_passes_model_and_unit {C K}
    (fpi : PackageInfo → Model) (move : string → string → M FileSystem ())
    (self : Listener C K) (report : DownloadReport) (w : World C K) :
  let m := fpi (data report) in
  let evs := new_events (download_succeeded fpi move self report) w in
  evs !! 0 = Some (EInitUnit (TYPE m) (unit_key m) (metadata m)
                             (relative_path m)) ∧
  (∀ unit, ESaveUnit unit ∈ evs →
           (init_unit_of fpi self report w).1 = Ok unit) ∧
  (∀ src dst, EMove src dst ∈ evs →
              src = destination report ∧
              ∃ unit, (init_unit_of fpi self report w).1 = Ok unit ∧
                      dst = storage_path unit) ∧
  calls CFailureCallback evs = 0.
Proof.
  cbv zeta. by_run fpi move self report w; rewrite Hinit; cbn [fst];
    (split_and!; [done | | | done]).
  all: intros.
  all: repeat match goal with
         | H : _ ∈ _ :: _ |- _ => apply elem_of_cons in H as [H|H]
         | H : _ ∈ [] |- _ => by apply elem_of_nil in H
         end; simplify_eq; eauto.
Qed.

Lemma download_succeeded_passes_model_and_unit_witness :
  (init_unit_of fixtures.from_package_info (fixtures.listening fixtures.store)
     fixtures.bash_report fixtures.downloaded).1
  = Ok {| type_id := "rpm";
          key := unit_key (fixtures.from_package_info fixtures.bash_info);
          unit_metadata :=
            metadata (fixtures.from_package_info fixtures.bash_info);
          storage_path := "/var/lib/pulp/content/bash.rpm" |}.
Proof.
  apply (download_succeeded_passes_model_and_unit
           fixtures.from_package_info fixtures.move
           (fixtures.listening fixtures.store)
           fixtures.bash_report fixtures.downloaded).
  vm_compute. set_solver.
Defined.

(** X2.  When the move raises (nothing to move, for one), its exception is
    the outcome of [download_succeeded] after [init_unit] has run: the
    conduit is left as [init_unit] left it, [save_unit] and the success
    callback are not called, the caller is untouched and the file system is
    as the failed move left it. *)
Theorem download_succeeded_move_raises {C K}
    (fpi : PackageInfo → Model) (move : string → string → M FileSystem ())
    (self : Listener C K) (report : DownloadReport) (w : World C K)
    (unit : Unit) (db : C) (exn : Exn) (left : FileSystem) :
  init_unit_of fpi self report w = (Ok unit, db) →
  move (destination report) (storage_path unit) (fs w) = (Raise exn, left) →
  let r := download_succeeded fpi move self report w in
  let evs := new_events (download_succeeded fpi move self report) w in
  r.1 = Raise exn ∧
  fs r.2 = left ∧ conduit r.2 = db ∧ caller r.2 = caller w ∧
  calls CInitUnit evs = 1 ∧ calls CSaveUnit evs = 0 ∧
  calls CSuccessCallback evs = 0.
Proof.
  intros Hinit0 Hmove0. cbv zeta.
  by_run fpi move self report w; try congruence.
  split_and!; try done; congruence.
Qed.

Lemma download_succeeded_move_raises_witness :
  (download_succeeded fixtures.from_package_info fixtures.move
     (fixtures.listening fixtures.store) fixtures.bash_report
     fixtures.nothing_downloaded).1 = Raise (IOError "/tmp/sync/bash.rpm") ∧
  fs (download_succeeded fixtures.from_package_info fixtures.move
        (fixtures.listening fixtures.store) fixtures.bash_report
        fixtures.nothing_downloaded).2 = ∅.
Proof.
  destruct (download_succeeded_move_raises fixtures.from_package_info
              fixtures.move
              (fixtures.listening fixtures.store) fixtures.bash_report
              fixtures.nothing_downloaded _ _ _ _ eq_refl eq_refl)
    as (Hout & Hfs & _).
  split; [exact Hout | exact Hfs].
Defined.

(** X3.  When [init_unit] raises, [download_succeeded] has made no other
    call: nothing is moved or saved, no callback is called, and only the
    conduit may have changed. *)
Theorem download_succeeded_init_unit_raises {C K}
    (fpi : PackageInfo → Model) (move : string → string → M FileSystem ())
    (self : Listener C K) (report : DownloadReport) (w : World C K)
    (exn : Exn) (db : C) :
  init_unit_of fpi self report w = (Raise exn, db) →
  let r := download_succeeded fpi move self report w in
  let evs := new_events (download_succeeded fpi move self report) w in
  r.1 = Raise exn ∧
  kind <$> evs = [CInitUnit] ∧
  fs r.2 = fs w ∧ conduit r.2 = db ∧ caller r.2 = caller w.
Proof.
  intros Hinit0. cbv zeta.
  by_run fpi move self report w; try congruence.
  split_and!; try done; congruence.
Qed.

Lemma download_succeeded_init_unit_raises_witness :
  fs (download_succeeded fixtures.from_package_info fixtures.move
        (fixtures.listening fixtures.offline_store) fixtures.bash_report
        fixtures.downloaded).2 = fs fixtures.downloaded.
Proof.
  apply (download_succeeded_init_unit_raises fixtures.from_package_info
           fixtures.move
           (fixtures.listening fixtures.offline_store) fixtures.bash_report
           fixtures.downloaded (Raised "ConnectionFailure") []).
  reflexivity.
Defined.

(** X4.  When the success callback raises, its exception is the outcome of
    [download_succeeded], and what was done before stays done: the file
    system is as the move left it and the conduit as [save_unit] left it. *)
Theorem download_succeeded_callback_raises {C K}
    (fpi : PackageInfo → Model) (move : string → string → M FileSystem ())
    (self : Listener C K) (report : DownloadReport) (w : World C K)
    (unit : Unit) (db db' : C) (moved : FileSystem) (exn : Exn) (state : K) :
  init_unit_of fpi self report w = (Ok unit, db) →
  move (destination report) (storage_path unit) (fs w) = (Ok (), moved) →
  @save_unit C (sync_conduit self) unit db = (Ok (), db') →
  success_callback self (fpi (data report)) (caller w) = (Raise exn, state) →
  let r := download_succeeded fpi move self report w in
  let evs := new_events (download_succeeded fpi move self report) w in
  r.1 = Raise exn ∧
  fs r.2 = moved ∧
  conduit r.2 = db' ∧
  caller r.2 = state ∧
  calls CMove evs = 1 ∧ calls CSaveUnit evs = 1.
Proof.
  intros Hinit0 Hmove0 Hsave0 Hcb0. cbv zeta.
  by_run fpi move self report w; try congruence.
  split_and!; try done; congruence.
Qed.

Lemma download_succeeded_callback_raises_witness :
  (download_succeeded fixtures.from_package_info fixtures.move
     (fixtures.complaining fixtures.store) fixtures.bash_report
     fixtures.downloaded).1 = Raise (Raised "CallbackError") ∧
  length (conduit (download_succeeded fixtures.from_package_info
                     fixtures.move (fixtures.complaining fixtures.store)
                     fixtures.bash_report fixtures.downloaded).2) = 1.
Proof.
  destruct (download_succeeded_callback_raises fixtures.from_package_info
              fixtures.move
              (fixtures.complaining fixtures.store) fixtures.bash_report
              fixtures.downloaded _ _ _ _ _ _
              eq_refl eq_refl eq_refl eq_refl)
    as (Hout & _ & Hdb & _).
  split; [exact Hout | by rewrite Hdb].
Defined.

(** X5.  [download_succeeded] changes the files by its one move only:
    whatever the run, the file system afterwards is the one before when
    [init_unit] raised, and else the one the move left; so a path that the
    move leaves alone holds what it held. *)
Theorem download_succeeded_changes_files_by_move {C K}
    (fpi : PackageInfo → Model) (move : string → string → M FileSystem ())
    (self : Listener C K) (report : DownloadReport) (w : World C K) :
  let r := download_succeeded fpi move self report w in
  fs r.2 = match (init_unit_of fpi self report w).1 with
           | Ok unit =>
               (move (destination report) (storage_path unit) (fs w)).2
           | Raise _ => fs w
           end ∧
  (∀ p, (∀ unit, (init_unit_of fpi self report w).1 = Ok unit →
                 (move (destination report) (storage_path unit) (fs w)).2 !! p
                 = fs w !! p) →
        fs r.2 !! p = fs w !! p).
Proof.
  cbv zeta. by_run fpi move self report w; rewrite Hinit; cbn [fst];
    try rewrite Hmove; cbn [snd]; (split; [done |]); try done.
  all: intros p Hp; specialize (Hp u eq_refl); by rewrite Hmove in Hp.
Qed.

Lemma download_succeeded_changes_files_by_move_witness :
  fs (download_succeeded fixtures.from_package_info fixtures.move
        (fixtures.listening fixtures.store) fixtures.bash_report
        fixtures.downloaded).2 !! "/etc/passwd"
  = fs fixtures.downloaded !! "/etc/passwd".
Proof.
  apply (download_succeeded_changes_files_by_move fixtures.from_package_info
           fixtures.move
           (fixtures.listening fixtures.store) fixtures.bash_report
           fixtures.downloaded).
  intros unit [= <-]. vm_compute. reflexivity.
Defined.

(** X6.  A report is consumed once, with a move that raises when it has
    nothing to move.  After a call of [download_succeeded] that returned
    normally and left nothing at [report.destination], a second call for the
    same report does not return normally, and neither saves a unit nor calls
    the success callback. *)
Theorem download_succeeded_not_twice {C K}
    (fpi : PackageInfo → Model) (move : string → string → M FileSystem ())
    (self : Listener C K) (report : DownloadReport) (w : World C K) :
  let r := download_succeeded fpi move self report w in
  let again := download_succeeded fpi move self report r.2 in
  let evs := new_events (download_succeeded fpi move self report) r.2 in
  (∀ dst files, files !! destination report = None →
                (move (destination report) dst files).1 ≠ Ok ()) →
  r.1 = Ok () →
  fs r.2 !! destination report = None →
  again.1 ≠ Ok () ∧
  calls CSaveUnit evs = 0 ∧
  calls CSuccessCallback evs = 0.
Proof.
  cbv zeta. intros Hmissing _ Hgone.
  set (w2 := (download_succeeded fpi move self report w).2) in *.
  clearbody w2.
  by_run fpi move self report w2; try done.
  all: specialize (Hmissing (storage_path u) (fs w2) Hgone);
    by rewrite Hmove in Hmissing.
Qed.

Lemma download_succeeded_not_twice_witness :
  (download_succeeded fixtures.from_package_info fixtures.move
     (fixtures.listening fixtures.store) fixtures.bash_report
     (download_succeeded fixtures.from_package_info fixtures.move
        (fixtures.listening fixtures.store) fixtures.bash_report
        fixtures.downloaded).2).1
  ≠ Ok ().
Proof.
  apply (download_succeeded_not_twice fixtures.from_package_info
           fixtures.move
           (fixtures.listening fixtures.store) fixtures.bash_report
           fixtures.downloaded).
  - intros dst files Hnone. unfold fixtures.move.
    destruct (_ && _); [done |]. by rewrite Hnone.
  - vm_compute. reflexivity.
  - vm_compute. reflexivity.
Defined.

(** X7.  A failed download does not disturb a later successful one: what
    [download_succeeded] leaves in the file system and in the conduit is the
    same whether or not [download_failed] ran before it, for any two
    reports. *)
Theorem download_failed_does_not_disturb {C K}
    (fpi : PackageInfo → Model) (move : string → string → M FileSystem ())
    (self : Listener C K)
    (failed report : DownloadReport) (w : World C K) :
  let w' := (download_failed fpi self failed w).2 in
  fs (download_succeeded fpi move self report w').2
    = fs (download_succeeded fpi move self report w).2 ∧
  conduit (download_succeeded fpi move self report w').2
    = conduit (download_succeeded fpi move self report w).2.
Proof.
  cbv zeta. apply download_succeeded_files_conduit;
    by rewrite download_failed_run.
Qed.

End listener_more.

(** * Further properties of the actions *)

Module viewsets_more.
Import viewsets viewsets_props.

Section Actions.
Variable remotes : gmap Pk RpmRemote.
Variable publishers : gmap Pk RpmPublisher.
Variable RepositorySyncURLSerializer : Request → option ValidatedData.
Variable RepositoryPublishURLSerializer : Request → option ValidatedData.
Variable latest : Repository → RepositoryVersion.
Variable request : Request.
Variable pk_ : Pk.
Variable queue : list Task.

(** Run an action by cases on what it looks up. *)
Ltac by_lookup :=
  unfold sync, publish, get_object, is_valid, enqueue_with_reservation,
    bind, ret, raise;
  repeat match goal with
    | H : ?x = _ |- context [match ?x with _ => _ end] => rewrite H
    | |- context [match ?x !! ?k with _ => _ end] =>
        destruct (x !! k) eqn:?
    | |- context [match ?f request with _ => _ end] =>
        destruct (f request) as [[[?|] [?|]]|] eqn:?
    end.

(** X8.  Both actions look the object up before they validate the body: an
    unknown primary key gives a 404 whatever the body is, a known one with a
    body that does not validate gives the validation error, and in both cases
    nothing is queued. *)
Theorem actions_reject_before_enqueueing :
  (remotes !! pk_ = None →
   sync remotes RepositorySyncURLSerializer request pk_ queue
     = (Raise Http404, queue)) ∧
  (publishers !! pk_ = None →
   publish publishers RepositoryPublishURLSerializer latest request pk_ queue
     = (Raise Http404, queue)) ∧
  (is_Some (remotes !! pk_) →
   RepositorySyncURLSerializer request = None →
   sync remotes RepositorySyncURLSerializer request pk_ queue
     = (Raise ValidationError, queue)) ∧
  (is_Some (publishers !! pk_) →
   RepositoryPublishURLSerializer request = None →
   publish publishers RepositoryPublishURLSerializer latest request pk_ queue
     = (Raise ValidationError, queue)).
Proof.
  split_and!.
  - intros Hnone. unfold sync, get_object, bind. by rewrite Hnone.
  - intros Hnone. unfold publish, get_object, bind. by rewrite Hnone.
  - intros [remote Hremote] Hinvalid.
    unfold sync, get_object, is_valid, bind. by rewrite Hremote, Hinvalid.
  - intros [publisher Hpublisher] Hinvalid.
    unfold publish, get_object, is_valid, bind.
    by rewrite Hpublisher, Hinvalid.
Qed.

(** X9.  [sync] with validated data that has no repository fails on
    [repository.pk] and queues nothing. *)
Theorem sync_without_repository validated_data :
  is_Some (remotes !! pk_) →
  RepositorySyncURLSerializer request = Some validated_data →
  get_repository validated_data = None →
  sync remotes RepositorySyncURLSerializer request pk_ queue
    = (Raise (AttributeError "pk"), queue).
Proof.
  intros [remote Hremote] Hvalid Hnone.
  unfold sync, get_object, is_valid, bind.
  rewrite Hremote, Hvalid. cbn [ret]. by rewrite Hnone.
Qed.

(** X10.  Whatever the request, an action leaves the tasks already queued
    as they are and adds one task when it returns a response, none when it
    raises. *)
Theorem actions_enqueue_at_most_one :
  let s := sync remotes RepositorySyncURLSerializer request pk_ queue in
  let p := publish publishers RepositoryPublishURLSerializer latest request
             pk_ queue in
  (∃ added, s.2 = queue ++ added ∧
            length added = match s.1 with Ok _ => 1 | Raise _ => 0 end) ∧
  (∃ added, p.2 = queue ++ added ∧
            length added = match p.1 with Ok _ => 1 | Raise _ => 0 end).
Proof.
  cbv zeta. split; by_lookup; cbn [fst snd];
    first [ by eexists [_] | exists []; by rewrite app_nil_r ].
Qed.

(** X11.  [sync] returns a response only for a request that names an
    existing remote and validates to a repository; the task it has queued
    reserves that repository and that remote, and is given their primary
    keys. *)
Theorem sync_response_inv response queue' :
  sync remotes RepositorySyncURLSerializer request pk_ queue
    = (Ok response, queue') →
  ∃ remote validated_data repository,
    remotes !! pk_ = Some remote ∧
    RepositorySyncURLSerializer request = Some validated_data ∧
    get_repository validated_data = Some repository ∧
    let task := {| func := tasks.synchronize;
                   resources := [OfRepository repository; OfRemote remote];
                   kwargs := {[ "remote_pk" := pk remote;
                                "repository_pk" := pk repository ]} |} in
    queue' = queue ++ [task] ∧
    response = OperationPostponedResponse
                 {| id := length queue; job := task |} request.
Proof.
  by_lookup; intros [= <- <-]; eauto 10.
Qed.

(** X12.  [publish] returns a response only for a request that names an
    existing publisher and validates to a repository version, or else to a
    repository, of which it takes the latest version; the task it has queued
    reserves the repository of that version and the publisher, and is given
    the primary keys of the publisher and of the version. *)
Theorem publish_response_inv response queue' :
  publish publishers RepositoryPublishURLSerializer latest request pk_ queue
    = (Ok response, queue') →
  ∃ publisher validated_data repository_version,
    publishers !! pk_ = Some publisher ∧
    RepositoryPublishURLSerializer request = Some validated_data ∧
    (get_repository_version validated_data = Some repository_version ∨
     get_repository_version validated_data = None ∧
     ∃ repository, get_repository validated_data = Some repository ∧
                   repository_version = latest repository) ∧
    let task := {| func := tasks.publish;
                   resources := [OfRepository (repository repository_version);
                                 OfPublisher publisher];
                   kwargs := {[ "publisher_pk" := pk publisher;
                                "repository_version_pk"
                                  := pk repository_version ]} |} in
    queue' = queue ++ [task] ∧
    response = OperationPostponedResponse
                 {| id := length queue; job := task |} request.
Proof.
  by_lookup; intros [= <- <-]; eauto 15.
Qed.

(** X13.  When the validated data has a repository version, [publish] does
    not look at the repository it may also have, nor at
    [RepositoryVersion.latest]. *)
Theorem publish_given_version_ignores_latest
    (serializer' : Request → option ValidatedData)
    (latest' : Repository → RepositoryVersion)
    validated_data validated_data' repository_version :
  RepositoryPublishURLSerializer request = Some validated_data →
  serializer' request = Some validated_data' →
  get_repository_version validated_data = Some repository_version →
  get_repository_version validated_data' = Some repository_version →
  publish publishers RepositoryPublishURLSerializer latest request pk_ queue
    = publish publishers serializer' latest' request pk_ queue.
Proof.
  intros Hvalid Hvalid' Hrv Hrv'.
  unfold publish, get_object, is_valid, bind.
  destruct (publishers !! pk_); [|done].
  rewrite Hvalid, Hvalid'. cbn [ret]. by rewrite Hrv, Hrv'.
Qed.

End Actions.

(** No remote has the primary key 9, and an empty body does not validate. *)
Lemma actions_reject_before_enqueueing_witness :
  sync fixtures.remotes fixtures.serializer fixtures.empty_request 9 []
    = (Raise Http404, []) ∧
  publish fixtures.publishers fixtures.serializer fixtures.latest
    fixtures.empty_request 9 [] = (Raise Http404, []) ∧
  sync fixtures.remotes fixtures.serializer fixtures.empty_request 3 []
    = (Raise ValidationError, []) ∧
  publish fixtures.publishers fixtures.serializer fixtures.latest
    fixtures.empty_request 5 [] = (Raise ValidationError, []).
Proof.
  destruct (actions_reject_before_enqueueing fixtures.remotes
              fixtures.publishers fixtures.serializer fixtures.serializer
              fixtures.latest fixtures.empty_request 9%N [])
    as (Hsync404 & Hpublish404 & _).
  destruct (actions_reject_before_enqueueing fixtures.remotes
              fixtures.publishers fixtures.serializer fixtures.serializer
              fixtures.latest fixtures.empty_request 3%N [])
    as (_ & _ & Hsync & _).
  destruct (actions_reject_before_enqueueing fixtures.remotes
              fixtures.publishers fixtures.serializer fixtures.serializer
              fixtures.latest fixtures.empty_request 5%N [])
    as (_ & _ & _ & Hpublish).
  split_and!.
  - apply Hsync404. reflexivity.
  - apply Hpublish404. reflexivity.
  - apply Hsync; [by eexists | reflexivity].
  - apply Hpublish; [by eexists | reflexivity].
Defined.

(** A sync request that names a repository version names no repository. *)
Lemma sync_without_repository_witness :
  sync fixtures.remotes fixtures.serializer fixtures.for_version 3 []
    = (Raise (AttributeError "pk"), []).
Proof.
  apply (sync_without_repository fixtures.remotes fixtures.serializer
           fixtures.for_version 3%N []
           {| get_repository := None;
              get_repository_version := Some fixtures.zoo_1 |});
    [by eexists | reflexivity | reflexivity].
Defined.

Lemma sync_response_inv_witness :
  ∃ remote validated_data repository,
    fixtures.remotes !! 3%N = Some remote ∧
    fixtures.serializer fixtures.for_repository = Some validated_data ∧
    get_repository validated_data = Some repository.
Proof.
  destruct (sync_response_inv fixtures.remotes fixtures.serializer
              fixtures.for_repository 3%N [] _ _ eq_refl)
    as (remote & vd & repo & Hremote & Hvalid & Hrepo & _).
  exists remote, vd, repo. by split_and!.
Defined.

Lemma publish_response_inv_witness :
  ∃ publisher validated_data repository_version,
    fixtures.publishers !! 5%N = Some publisher ∧
    fixtures.serializer fixtures.for_repository = Some validated_data ∧
    (get_repository_version validated_data = Some repository_version ∨
     get_repository_version validated_data = None ∧
     ∃ repository, get_repository validated_data = Some repository ∧
                   repository_version = fixtures.latest repository).
Proof.
  destruct (publish_response_inv fixtures.publishers fixtures.serializer
              fixtures.latest fixtures.for_repository 5%N [] _ _ eq_refl)
    as (publisher & vd & rv & Hpublisher & Hvalid & Hrv & _).
  exists publisher, vd, rv. by split_and!.
Defined.

(** With the version [zoo_1] given, it makes no difference that the data
    also names the repository, or which version is the latest. *)
Lemma publish_given_version_ignores_latest_witness :
  publish fixtures.publishers fixtures.serializer fixtures.latest
    fixtures.for_version 5 []
  = publish fixtures.publishers
      (λ _, Some {| get_repository := Some fixtures.zoo;
                    get_repository_version := Some fixtures.zoo_1 |})
      (λ _, fixtures.zoo_1) fixtures.for_version 5 [].
Proof.
  apply (publish_given_version_ignores_latest fixtures.publishers
           fixtures.serializer fixtures.latest fixtures.for_version 5%N []
           _ _
           {| get_repository := None;
              get_repository_version := Some fixtures.zoo_1 |}
           {| get_repository := Some fixtures.zoo;
              get_repository_version := Some fixtures.zoo_1 |}
           fixtures.zoo_1); reflexivity.
Defined.

End viewsets_more.
